(** * ThreadBrain backend ([server/app/main.py])

    A shallow embedding of the FastAPI module and of the four route
    handlers it registers, together with the properties the specification
    states about them.

    Conventions.
    - A Python [str] is a [string], a sequence of bytes.  A literal of the
      module is the bytes of its UTF-8 encoding.  A value of [os.environ] is
      the bytes the process was given (POSIX, UTF-8 as the filesystem
      encoding): Python decodes them with the surrogateescape handler,
      which loses nothing, a byte that is part of no well-formed UTF-8
      sequence becoming one lone surrogate.  The separator used by the
      module is the comma, the single byte 44, which occurs inside no
      multi-byte sequence, so splitting the bytes is splitting the text.
    - A text can be encoded as UTF-8, as the JSON response class does,
      exactly when it has no lone surrogate, that is when its bytes are
      well-formed UTF-8 ([Py.well_formed_utf8]).
    - A value handed to the JSON encoder is a [value]; a Python [dict] keeps
      its insertion order, so it is an association list.
    - [os.environ] is a finite map from names to values.
    - Module-level code and handlers run in the monad [M]: they may raise,
      they thread the process state, and they report the names they looked
      up in the environment. *)

From Stdlib Require Import String Ascii ZArith List Lia.
From stdpp Require Import base option list strings gmap.

Set Warnings "-register-all".

Local Open Scope string_scope.
Local Open Scope list_scope.

(** ** Python strings *)

Module Py.

Inductive exn : Type :=
| ValueError (msg : string)
| NameError (name : string)
| UnicodeEncodeError (text : string).

(** Adds one character in front of the segment under construction. *)
Definition push_char (a : ascii) (segs : list string) : list string :=
  match segs with
  | [] => [String a EmptyString]
  | seg :: rest => String a seg :: rest
  end.

(** [str.split(sep)] for a non-empty [sep], scanning from the left.
    [skip] counts the characters of a separator occurrence that are still
    to be passed over. *)
Fixpoint split_from (sep : string) (skip : nat) (s : string) : list string :=
  match s with
  | EmptyString => [EmptyString]
  | String a rest =>
      match skip with
      | S k => split_from sep k rest
      | O =>
          if String.prefix sep s
          then EmptyString :: split_from sep (String.length sep - 1) rest
          else push_char a (split_from sep 0 rest)
      end
  end.

(** [s.split(sep)]: an empty separator is a [ValueError]. *)
Definition str_split (s sep : string) : exn + list string :=
  match sep with
  | EmptyString => inl (ValueError "empty separator")
  | _ => inr (split_from sep 0 s)
  end.

(** [sep.join(segs)]. *)
Fixpoint str_join (sep : string) (segs : list string) : string :=
  match segs with
  | [] => EmptyString
  | [seg] => seg
  | seg :: rest => seg +:+ sep +:+ str_join sep rest
  end.

(** [s.count(c)] for a one-character [c]. *)
Fixpoint str_count (c : ascii) (s : string) : nat :=
  match s with
  | EmptyString => 0
  | String a rest => (if Ascii.eqb a c then 1 else 0) + str_count c rest
  end.

(** [c in s] for a one-character [c]. *)
Fixpoint str_contains (c : ascii) (s : string) : bool :=
  match s with
  | EmptyString => false
  | String a rest => Ascii.eqb a c || str_contains c rest
  end.

(** Well-formed UTF-8, byte by byte.  The state says what the sequence
    under way still needs: nothing, one, two or three continuation bytes,
    or a second byte from the narrower range the lead bytes E0, ED, F0 and
    F4 allow. *)
Inductive utf8_state : Type :=
| U_start
| U_tail1
| U_tail2
| U_tail3
| U_after_E0
| U_after_ED
| U_after_F0
| U_after_F4.

Definition between (lo hi b : N) : bool := (lo <=? b)%N && (b <=? hi)%N.

Definition utf8_step (st : utf8_state) (b : N) : option utf8_state :=
  match st with
  | U_start =>
      if between 0x00 0x7F b then Some U_start
      else if between 0xC2 0xDF b then Some U_tail1
      else if between 0xE0 0xE0 b then Some U_after_E0
      else if between 0xE1 0xEC b then Some U_tail2
      else if between 0xED 0xED b then Some U_after_ED
      else if between 0xEE 0xEF b then Some U_tail2
      else if between 0xF0 0xF0 b then Some U_after_F0
      else if between 0xF1 0xF3 b then Some U_tail3
      else if between 0xF4 0xF4 b then Some U_after_F4
      else None
  | U_tail1 => if between 0x80 0xBF b then Some U_start else None
  | U_tail2 => if between 0x80 0xBF b then Some U_tail1 else None
  | U_tail3 => if between 0x80 0xBF b then Some U_tail2 else None
  | U_after_E0 => if between 0xA0 0xBF b then Some U_tail1 else None
  | U_after_ED => if between 0x80 0x9F b then Some U_tail1 else None
  | U_after_F0 => if between 0x90 0xBF b then Some U_tail2 else None
  | U_after_F4 => if between 0x80 0x8F b then Some U_tail2 else None
  end.

Fixpoint utf8_scan (st : utf8_state) (s : string) : bool :=
  match s with
  | EmptyString =>
      match st with
      | U_start => true
      | _ => false
      end
  | String a rest =>
      match utf8_step st (N_of_ascii a) with
      | Some st' => utf8_scan st' rest
      | None => false
      end
  end.

(** Whether [s.encode("utf-8")] succeeds. *)
Definition well_formed_utf8 (s : string) : bool := utf8_scan U_start s.

End Py.

(** ** Values returned by handlers *)

Inductive value : Type :=
| VInt (n : Z)
| VStr (s : string)
| VList (xs : list value)
| VDict (items : list (string * value)).

(** [d[key]] on the association list of a dict: first binding of [key]. *)
Fixpoint dict_get (key : string) (items : list (string * value)) : option value :=
  match items with
  | [] => None
  | (k, v) :: rest => if String.eqb k key then Some v else dict_get key rest
  end.

(** Whether the JSON response class can render the value: it dumps it
    without escaping non-ASCII text and encodes the result as UTF-8, which
    fails on a text, key or value, that is not well formed. *)
Fixpoint renders (v : value) : bool :=
  match v with
  | VInt _ => true
  | VStr s => Py.well_formed_utf8 s
  | VList xs => forallb renders xs
  | VDict items =>
      forallb (fun kv : string * value =>
                 let '(k, x) := kv in Py.well_formed_utf8 k && renders x)
              items
  end.

Definition field (key : string) (v : value) : option value :=
  match v with
  | VDict items => dict_get key items
  | _ => None
  end.

(** ** The application object and the process state *)

(** [CORSMiddleware] with the four keyword arguments the module passes. *)
Inductive Middleware : Type :=
| CORSMiddleware (allow_origins : list string) (allow_credentials : bool)
                 (allow_methods allow_headers : list string).

(** The functions decorated with [@app.get]. *)
Inductive endpoint : Type :=
| ep_root
| ep_get_users
| ep_health_check
| ep_test_endpoint.

Record APIRoute : Type := mkRoute {
  path : string;
  methods : list string;
  route_endpoint : endpoint;
  (* [status_code] is not given in any decorator: the default, 200 *)
  status_code : Z
}.

Record FastAPI : Type := mkApp {
  title : string;
  version : string;
  description : string;
  user_middleware : list Middleware;
  routes : list APIRoute
}.

(** Process-wide state seen by the module: [os.environ] and the two module
    globals.  A global is [None] until its assignment has run. *)
Record Process : Type := mkProcess {
  environ : gmap string string;
  app : option FastAPI;
  cors_origins : option (list string)
}.

(** ** The monad of module code *)

Inductive outcome (A : Type) : Type :=
| Returns (a : A)
| Raises (e : Py.exn).
Arguments Returns {A} a.
Arguments Raises {A} e.

(** What running a piece of code yields: its outcome, the state it leaves,
    and the environment names it looked up, oldest first. *)
Record ran (A : Type) : Type := mkRan {
  result : outcome A;
  after : Process;
  lookups : list string
}.
Arguments mkRan {A} result after lookups.
Arguments result {A} r.
Arguments after {A} r.
Arguments lookups {A} r.

Definition M (A : Type) : Type := Process -> ran A.

Definition ret {A : Type} (a : A) : M A :=
  fun p => mkRan (Returns a) p [].

Definition raise {A : Type} (e : Py.exn) : M A :=
  fun p => mkRan (Raises e) p [].

Definition bind {A B : Type} (m : M A) (k : A -> M B) : M B :=
  fun p =>
    let r := m p in
    match result r with
    | Returns a =>
        let r' := k a (after r) in
        mkRan (result r') (after r') (lookups r ++ lookups r')
    | Raises e => mkRan (Raises e) (after r) (lookups r)
    end.

Notation "x <- m ;; k" := (bind m (fun x => k))
  (at level 100, m at next level, right associativity).
Notation "m ;;; k" := (bind m (fun _ => k))
  (at level 100, right associativity).

Definition lift_result {A : Type} (r : Py.exn + A) : M A :=
  match r with
  | inl e => raise e
  | inr a => ret a
  end.

(** [os.getenv(key, default)]. *)
Definition os_getenv (key default : string) : M string :=
  fun p =>
    mkRan (Returns (match environ p !! key with
                    | Some v => v
                    | None => default
                    end))
          p [key].

(** Reading and assigning the module globals. *)
Definition load_app : M FastAPI :=
  fun p =>
    match app p with
    | Some a => mkRan (Returns a) p []
    | None => mkRan (Raises (Py.NameError "app")) p []
    end.

Definition store_app (a : FastAPI) : M unit :=
  fun p => mkRan (Returns tt) (mkProcess (environ p) (Some a) (cors_origins p)) [].

Definition load_cors_origins : M (list string) :=
  fun p =>
    match cors_origins p with
    | Some l => mkRan (Returns l) p []
    | None => mkRan (Raises (Py.NameError "cors_origins")) p []
    end.

Definition store_cors_origins (l : list string) : M unit :=
  fun p => mkRan (Returns tt) (mkProcess (environ p) (app p) (Some l)) [].

(** [app.add_middleware(...)]: the new entry goes in front. *)
Definition add_middleware (mw : Middleware) : M unit :=
  a <- load_app ;;
  store_app (mkApp (title a) (version a) (description a)
                   (mw :: user_middleware a) (routes a)).

(** [@app.get(path)] applied to a function: a GET route is appended. *)
Definition app_get (pth : string) (ep : endpoint) : M unit :=
  a <- load_app ;;
  store_app (mkApp (title a) (version a) (description a)
                   (user_middleware a)
                   (routes a ++ [mkRoute pth ["GET"] ep 200])).

(** ** The handlers *)

Definition banner : string := "FastAPI backend is running 🚀".

Definition root : M value :=
  ret (VDict [("message", VStr banner); ("status", VStr "healthy")]).

Definition get_users : M value :=
  ret (VList
         [VDict [("id", VInt 1); ("name", VStr "Nik"); ("email", VStr "nik@example.com")];
          VDict [("id", VInt 2); ("name", VStr "Kev"); ("email", VStr "kev@example.com")]]).

Definition health_check : M value :=
  env <- os_getenv "ENVIRONMENT" "unknown" ;;
  ret (VDict [("status", VStr "healthy"); ("environment", VStr env)]).

Definition test_endpoint : M value :=
  origins <- load_cors_origins ;;
  ret (VDict [("message", VStr "CORS is working!");
              ("origins", VList (map VStr origins))]).

Definition handler (ep : endpoint) : M value :=
  match ep with
  | ep_root => root
  | ep_get_users => get_users
  | ep_health_check => health_check
  | ep_test_endpoint => test_endpoint
  end.

(** ** The module body, run once when the module is imported *)

Definition main : M unit :=
  store_app (mkApp "ThreadBrain API" "1.0.0"
                   "Backend API for ThreadBrain application" [] []) ;;;
  raw <- os_getenv "CORS_ORIGINS" "http://localhost:5173" ;;
  parsed <- lift_result (Py.str_split raw ",") ;;
  store_cors_origins parsed ;;;
  add_middleware (CORSMiddleware ["*"] true ["*"] ["*"]) ;;;
  app_get "/" ep_root ;;;
  app_get "/users" ep_get_users ;;;
  app_get "/health" ep_health_check ;;;
  app_get "/test" ep_test_endpoint.

(** A process that has not imported the module yet. *)
Definition fresh (env : gmap string string) : Process :=
  mkProcess env None None.

Definition startup (env : gmap string string) : ran unit :=
  main (fresh env).

(** The process once the module is imported. *)
Definition booted (env : gmap string string) : Process :=
  after (startup env).

(** ** Serving requests *)

(** What a request carries.  No handler declares a parameter, so nothing of
    it reaches a handler; only the method and the path select the route. *)
Record Request : Type := mkRequest {
  req_method : string;
  req_path : string;
  req_query : list (string * string);
  req_headers : list (string * string);
  req_body : string
}.

Definition GET (pth : string) : Request := mkRequest "GET" pth [] [] "".

Record Response : Type := mkResponse {
  status : Z;
  body : value
}.

Definition newline : string := String "010"%char EmptyString.

(** A path without parameters is compiled to the pattern of the path
    itself anchored at both ends and matched from the start of the request
    path; the closing anchor holds at the end of the text and also just
    before a newline that ends it. *)
Definition path_regex_match (pattern pth : string) : bool :=
  String.eqb pattern pth || String.eqb (pattern +:+ newline) pth.

(** No registered path has a parameter, so a route matches a request when
    its pattern matches the path and the method is one of the route's. *)
Definition route_matches (req : Request) (r : APIRoute) : bool :=
  path_regex_match (path r) (req_path req)
  && existsb (String.eqb (req_method req)) (methods r).

Definition find_route (req : Request) (rs : list APIRoute) : option APIRoute :=
  List.find (route_matches req) rs.

(** The answer to an exception nothing handles. *)
Definition server_error : Response :=
  mkResponse 500 (VStr "Internal Server Error").

(** Rendering the returned value as the response body. *)
Definition render (v : value) : Py.exn + value :=
  if renders v then inr v else inl (Py.UnicodeEncodeError "utf-8").

(** A handler that returns a value the response class renders gives the
    route's status and the value as the body; one that raises, or whose
    value cannot be rendered, gives the server-error response. *)
Definition respond (r : APIRoute) (o : outcome value) : Response :=
  match o with
  | Returns v =>
      match render v with
      | inr b => mkResponse (status_code r) b
      | inl _ => server_error
      end
  | Raises _ => server_error
  end.

Record served : Type := mkServed {
  response : Response;
  left_in : Process;
  looked_up : list string
}.

(** Serving a request on the routes this module registered.  [None]: no
    such route answers the request, which is then left to the framework
    (documentation routes, 404, 405, preflight). *)
Definition serve (req : Request) (p : Process) : option served :=
  match app p with
  | None => None
  | Some a =>
      match find_route req (routes a) with
      | None => None
      | Some r =>
          let x := handler (route_endpoint r) p in
          Some (mkServed (respond r (result x)) (after x) (lookups x))
      end
  end.

(** ** Runs of a process *)

(** What can happen to a process after startup: a request arrives, or
    something in the process changes [os.environ]. *)
Inductive event : Type :=
| Arrives (req : Request)
| EnvSet (key val : string)
| EnvDel (key : string).

Definition step (p : Process) (e : event) : Process :=
  match e with
  | Arrives req =>
      match serve req p with
      | Some s => left_in s
      | None => p
      end
  | EnvSet key val => mkProcess (<[key := val]> (environ p)) (app p) (cors_origins p)
  | EnvDel key => mkProcess (delete key (environ p)) (app p) (cors_origins p)
  end.

Definition run (evs : list event) (p : Process) : Process :=
  fold_left step evs p.

(** Environment names looked up while the events are processed. *)
Fixpoint lookups_during (evs : list event) (p : Process) : list string :=
  match evs with
  | [] => []
  | e :: rest =>
      match e with
      | Arrives req =>
          match serve req p with
          | Some s => looked_up s
          | None => []
          end
      | _ => []
      end ++ lookups_during rest (step p e)
  end.

(** ** Vocabulary of the statements *)

(** The path each decorated function is registered under. *)
Definition endpoint_path (ep : endpoint) : string :=
  match ep with
  | ep_root => "/"
  | ep_get_users => "/users"
  | ep_health_check => "/health"
  | ep_test_endpoint => "/test"
  end.

(** The application object the module body builds. *)
Definition installed_app : FastAPI :=
  mkApp "ThreadBrain API" "1.0.0" "Backend API for ThreadBrain application"
        [CORSMiddleware ["*"] true ["*"] ["*"]]
        [mkRoute "/" ["GET"] ep_root 200;
         mkRoute "/users" ["GET"] ep_get_users 200;
         mkRoute "/health" ["GET"] ep_health_check 200;
         mkRoute "/test" ["GET"] ep_test_endpoint 200].

Definition getenv_of (env : gmap string string) (key default : string) : string :=
  match env !! key with
  | Some v => v
  | None => default
  end.

Definition comma : ascii := ","%char.

Definition comma_free (seg : string) : Prop := Py.str_contains comma seg = false.

(** Projection of a user record. *)
Definition user_id (u : value) : option Z :=
  match field "id" u with
  | Some (VInt n) => Some n
  | _ => None
  end.

(** A record as the specification describes it: exactly the fields id, name
    and email, an integer id, a name that is not empty, an email with an
    at sign. *)
Definition user_record (u : value) : Prop :=
  exists (n : Z) (name email : string),
    u = VDict [("id", VInt n); ("name", VStr name); ("email", VStr email)]
    /\ name <> ""
    /\ Py.str_contains "@" email = true.

Definition health_body (label : string) : value :=
  VDict [("status", VStr "healthy"); ("environment", VStr label)].

Definition test_body (origins : list string) : value :=
  VDict [("message", VStr "CORS is working!"); ("origins", VList (map VStr origins))].

(** The environment of the specification's example scenario, and one that
    sets neither variable. *)
Definition staging_env : gmap string string :=
  {[ "ENVIRONMENT" := "staging"; "CORS_ORIGINS" := "https://a.com,https://b.com" ]}.

Definition bare_env : gmap string string := ∅.

(** A value that names no usable origin list: an empty entry and an entry
    that is not an origin. *)
Definition malformed_env : gmap string string :=
  {[ "CORS_ORIGINS" := "http://a.com,,not an origin" ]}.

(** A value that is not an origin and has no comma. *)
Definition unsplit_env : gmap string string :=
  {[ "CORS_ORIGINS" := "not an origin" ]}.


(** Whether a request is one the /health route answers. *)
Definition is_health_request (req : Request) : bool :=
  String.eqb (req_method req) "GET" && path_regex_match "/health" (req_path req).

(** How many of the events are requests the /health route answers. *)
Fixpoint health_requests (evs : list event) : nat :=
  match evs with
  | [] => 0
  | Arrives req :: rest =>
      (if is_health_request req then 1 else 0) + health_requests rest
  | _ :: rest => health_requests rest
  end.

(** The paths the module registers. *)
Definition registered_paths : list string := ["/"; "/users"; "/health"; "/test"].

(** An environment whose CORS_ORIGINS is set to the empty text. *)
Definition empty_origins_env : gmap string string :=
  {[ "CORS_ORIGINS" := "" ]}.


(** The byte FF, which is part of no well-formed UTF-8 sequence. *)
Definition stray_byte : string := String "255"%char EmptyString.

(** CORS_ORIGINS set to the bytes 61 2C FF. *)
Definition undecodable_origins_env : gmap string string :=
  {[ "CORS_ORIGINS" := "a," +:+ stray_byte ]}.


(** ENVIRONMENT set to the byte FF. *)
Definition undecodable_label_env : gmap string string :=
  {[ "ENVIRONMENT" := stray_byte ]}.

(** The response to a handler that returned [v], on a route of status 200. *)
Definition answer (v : value) : Response :=
  if renders v then mkResponse 200 v else server_error.

(** A GET of /users carrying a query, a header and a body. *)
Definition loaded_request : Request :=
  mkRequest "GET" "/users" [("id", "2")] [("Origin", "https://evil.example")] "{}".

(** ** Sanity checks on the definitions *)

Example split_two :
  Py.str_split "https://a.com,https://b.com" "," = inr ["https://a.com"; "https://b.com"].
Proof. reflexivity. Qed.

Example split_empty_text : Py.str_split "" "," = inr [""].
Proof. reflexivity. Qed.

Example split_only_commas : Py.str_split ",," "," = inr [""; ""; ""].
Proof. reflexivity. Qed.

Example split_overlapping : Py.str_split "aaa" "aa" = inr [""; "a"].
Proof. reflexivity. Qed.

Example split_long_separator : Py.str_split "x--y--" "--" = inr ["x"; "y"; ""].
Proof. reflexivity. Qed.

Example split_empty_separator : Py.str_split "a,b" "" = inl (Py.ValueError "empty separator").
Proof. reflexivity. Qed.

Example banner_bytes : String.length banner = 31.
Proof. reflexivity. Qed.

(** The example scenario of the specification. *)
Example scenario_health :
  response <$> serve (GET "/health") (booted staging_env)
  = Some (mkResponse 200 (health_body "staging")).
Proof. vm_compute. reflexivity. Qed.

Example scenario_test :
  response <$> serve (GET "/test") (booted staging_env)
  = Some (mkResponse 200 (test_body ["https://a.com"; "https://b.com"])).
Proof. vm_compute. reflexivity. Qed.

(** Requests the module registers no route for. *)
Example unrouted_path : serve (GET "/docs") (booted bare_env) = None.
Proof. vm_compute. reflexivity. Qed.

Example unrouted_method :
  serve (mkRequest "POST" "/users" [] [] "") (booted bare_env) = None.
Proof. vm_compute. reflexivity. Qed.

(** A final newline after a registered path still reaches the route; any
    other addition does not. *)
Example routed_with_newline :
  response <$> serve (GET ("/health" +:+ newline)) (booted staging_env)
  = Some (mkResponse 200 (health_body "staging")).
Proof. vm_compute. reflexivity. Qed.

Example unrouted_trailing_slash : serve (GET "/users/") (booted bare_env) = None.
Proof. vm_compute. reflexivity. Qed.

Example unrouted_two_newlines :
  serve (GET ("/users" +:+ newline +:+ newline)) (booted bare_env) = None.
Proof. vm_compute. reflexivity. Qed.

(** Well-formed and ill-formed byte sequences. *)
Example banner_well_formed : Py.well_formed_utf8 banner = true.
Proof. reflexivity. Qed.

Example stray_byte_ill_formed : Py.well_formed_utf8 stray_byte = false.
Proof. reflexivity. Qed.

(** C0 80, an overlong encoding of the null character. *)
Example overlong_ill_formed :
  Py.well_formed_utf8 (String "192"%char (String "128"%char EmptyString)) = false.
Proof. reflexivity. Qed.

(** ED A0 80, the encoding of a surrogate. *)
Example surrogate_ill_formed :
  Py.well_formed_utf8
    (String "237"%char (String "160"%char (String "128"%char EmptyString))) = false.
Proof. reflexivity. Qed.

(** F4 90 80 80, beyond the last code point. *)
Example beyond_range_ill_formed :
  Py.well_formed_utf8
    (String "244"%char (String "144"%char (String "128"%char (String "128"%char EmptyString))))
  = false.
Proof. reflexivity. Qed.

(** E2 82 alone, a sequence cut short. *)
Example truncated_ill_formed :
  Py.well_formed_utf8 (String "226"%char (String "130"%char EmptyString)) = false.
Proof. reflexivity. Qed.

Example euro_well_formed : Py.well_formed_utf8 "€" = true.
Proof. reflexivity. Qed.

(** Before the module body has run there is no [cors_origins] to load. *)
Example test_endpoint_before_startup :
  result (test_endpoint (fresh bare_env)) = Raises (Py.NameError "cors_origins").
Proof. reflexivity. Qed.

(** ** Startup *)

Lemma startup_eq (env : gmap string string) :
  startup env =
  mkRan (Returns tt)
        (mkProcess env (Some installed_app)
           (Some (Py.split_from "," 0 (getenv_of env "CORS_ORIGINS" "http://localhost:5173"))))
        ["CORS_ORIGINS"].
Proof. reflexivity. Qed.

(** ** Splitting on the comma *)

Lemma prefix_empty (s : string) : String.prefix "" s = true.
Proof. destruct s; reflexivity. Qed.

(** One step of the scan when the separator is the comma. *)
Lemma split_comma_cons (a : ascii) (rest : string) :
  Py.split_from "," 0 (String a rest) =
  if Ascii.eqb a comma
  then "" :: Py.split_from "," 0 rest
  else Py.push_char a (Py.split_from "," 0 rest).
Proof.
  cbn [Py.split_from String.prefix String.length Nat.sub].
  destruct (ascii_dec "," a) as [<- | Hne].
  - rewrite prefix_empty. reflexivity.
  - destruct (Ascii.eqb_spec a comma) as [-> | _]; [now elim Hne | reflexivity].
Qed.

Lemma split_comma_nonempty (s : string) : Py.split_from "," 0 s <> [].
Proof.
  destruct s as [| a rest]; [discriminate |].
  rewrite split_comma_cons.
  destruct (Ascii.eqb a comma); [discriminate |].
  destruct (Py.split_from "," 0 rest); discriminate.
Qed.

Lemma length_push_char (a : ascii) (segs : list string) :
  segs <> [] -> length (Py.push_char a segs) = length segs.
Proof. destruct segs; [congruence | reflexivity]. Qed.

Lemma split_comma_length (s : string) :
  length (Py.split_from "," 0 s) = S (Py.str_count comma s).
Proof.
  induction s as [| a rest IH]; [reflexivity |].
  rewrite split_comma_cons. cbn [Py.str_count].
  destruct (Ascii.eqb a comma); cbn [length Nat.add].
  - now rewrite IH.
  - rewrite length_push_char by apply split_comma_nonempty. exact IH.
Qed.

Lemma join_push_char (a : ascii) (segs : list string) :
  segs <> [] ->
  Py.str_join "," (Py.push_char a segs) = String a (Py.str_join "," segs).
Proof.
  destruct segs as [| seg [| seg' rest]]; [congruence | reflexivity | reflexivity].
Qed.

Lemma join_cons_empty (segs : list string) :
  segs <> [] ->
  Py.str_join "," ("" :: segs) = String comma (Py.str_join "," segs).
Proof. destruct segs; [congruence | reflexivity]. Qed.

(** Joining the segments with commas gives the text back. *)
Lemma join_split_comma (s : string) :
  Py.str_join "," (Py.split_from "," 0 s) = s.
Proof.
  induction s as [| a rest IH]; [reflexivity |].
  rewrite split_comma_cons.
  destruct (Ascii.eqb_spec a comma) as [-> | _].
  - rewrite join_cons_empty by apply split_comma_nonempty. now rewrite IH.
  - rewrite join_push_char by apply split_comma_nonempty. now rewrite IH.
Qed.



(** A text without comma is its own single segment. *)
Lemma split_comma_single (s : string) :
  comma_free s -> Py.split_from "," 0 s = [s].
Proof.
  unfold comma_free.
  induction s as [| a rest IH]; [reflexivity |].
  cbn [Py.str_contains]. intros H.
  apply orb_false_iff in H as [Ha Hrest].
  rewrite split_comma_cons, Ha, (IH Hrest). reflexivity.
Qed.


Lemma count_zero_comma_free (s : string) :
  Py.str_count comma s = 0 <-> comma_free s.
Proof.
  unfold comma_free. induction s as [| a rest IH]; [easy |].
  cbn [Py.str_count Py.str_contains].
  destruct (Ascii.eqb a comma); cbn; [easy | exact IH].
Qed.

(** ** Well-formed UTF-8 and the comma *)

Lemma utf8_step_comma (st : Py.utf8_state) :
  Py.utf8_step st (N_of_ascii comma) =
  match st with
  | Py.U_start => Some Py.U_start
  | _ => None
  end.
Proof. destruct st; reflexivity. Qed.

(** A scan of a text is a scan of its first segment, from the same state,
    and a scan of every later segment from the start. *)
Lemma utf8_scan_split (s : string) (st : Py.utf8_state) :
  Py.utf8_scan st s =
  match Py.split_from "," 0 s with
  | [] => false
  | seg :: rest => Py.utf8_scan st seg && forallb Py.well_formed_utf8 rest
  end.
Proof.
  revert st. induction s as [| a s IH]; intros st.
  - cbn. now rewrite andb_true_r.
  - rewrite split_comma_cons.
    destruct (Ascii.eqb_spec a comma) as [-> | Hne].
    + cbn [Py.utf8_scan]. rewrite utf8_step_comma.
      destruct st; try reflexivity.
      rewrite (IH Py.U_start).
      destruct (Py.split_from "," 0 s) as [| seg rest] eqn:Hs;
        [now apply split_comma_nonempty in Hs | reflexivity].
    + cbn [Py.utf8_scan].
      destruct (Py.split_from "," 0 s) as [| seg rest] eqn:Hs;
        [now apply split_comma_nonempty in Hs |].
      cbn [Py.push_char Py.utf8_scan].
      destruct (Py.utf8_step st (N_of_ascii a)) as [st' |]; [| reflexivity].
      now rewrite (IH st').
Qed.

(** A text is well formed exactly when each of its segments is. *)
Lemma well_formed_split (s : string) :
  forallb Py.well_formed_utf8 (Py.split_from "," 0 s) = Py.well_formed_utf8 s.
Proof.
  unfold Py.well_formed_utf8 at 2. rewrite utf8_scan_split.
  destruct (Py.split_from "," 0 s) as [| seg rest] eqn:Hs;
    [now apply split_comma_nonempty in Hs | reflexivity].
Qed.

Lemma renders_strings (l : list string) :
  forallb renders (map VStr l) = forallb Py.well_formed_utf8 l.
Proof. induction l as [| x l IH]; [reflexivity |]. cbn. now rewrite IH. Qed.

Lemma renders_test_body (l : list string) :
  renders (test_body l) = forallb Py.well_formed_utf8 l.
Proof.
  unfold test_body. simpl. now rewrite renders_strings, andb_true_r.
Qed.

Lemma renders_health_body (label : string) :
  renders (health_body label) = Py.well_formed_utf8 label.
Proof. unfold health_body. simpl. now rewrite !andb_true_r. Qed.

(** ** Handlers and runs *)

Lemma handler_after (ep : endpoint) (p : Process) : after (handler ep p) = p.
Proof.
  destruct ep; cbn; try reflexivity.
  unfold test_endpoint, bind, load_cors_origins. destruct (cors_origins p); reflexivity.
Qed.

Lemma serve_left_in (req : Request) (p : Process) (s : served) :
  serve req p = Some s -> left_in s = p.
Proof.
  unfold serve. destruct (app p) as [a |]; [| discriminate].
  destruct (find_route req (routes a)) as [r |]; [| discriminate].
  intros [= <-]. apply handler_after.
Qed.

Lemma step_arrives (req : Request) (p : Process) : step p (Arrives req) = p.
Proof.
  cbn. destruct (serve req p) as [s |] eqn:Hs; [| reflexivity].
  now apply serve_left_in in Hs.
Qed.

Lemma run_arrivals (reqs : list Request) (p : Process) :
  run (map Arrives reqs) p = p.
Proof.
  unfold run. induction reqs as [| req reqs IH]; [reflexivity |].
  cbn [map fold_left]. now rewrite step_arrives.
Qed.

Lemma step_globals (p : Process) (e : event) :
  app (step p e) = app p /\ cors_origins (step p e) = cors_origins p.
Proof.
  destruct e as [req | key val | key]; [| split; reflexivity ..].
  now rewrite step_arrives.
Qed.

(** No event touches the module globals. *)
Lemma run_globals (evs : list event) (p : Process) :
  app (run evs p) = app p /\ cors_origins (run evs p) = cors_origins p.
Proof.
  unfold run. revert p. induction evs as [| e evs IH]; intros p; [split; reflexivity |].
  cbn [fold_left]. destruct (IH (step p e)) as [-> ->]. apply step_globals.
Qed.

Lemma booted_eq (env : gmap string string) :
  booted env =
  mkProcess env (Some installed_app)
    (Some (Py.split_from "," 0 (getenv_of env "CORS_ORIGINS" "http://localhost:5173"))).
Proof. reflexivity. Qed.

Lemma run_booted_app (env : gmap string string) (evs : list event) :
  app (run evs (booted env)) = Some installed_app.
Proof. now destruct (run_globals evs (booted env)) as [-> _]. Qed.

Lemma run_booted_cors_origins (env : gmap string string) (evs : list event) :
  cors_origins (run evs (booted env)) =
  Some (Py.split_from "," 0 (getenv_of env "CORS_ORIGINS" "http://localhost:5173")).
Proof. now destruct (run_globals evs (booted env)) as [_ ->]. Qed.

(** ** What a handler reads *)

(** A handler's outcome and its environment lookups are settled by
    [os.environ] and the [cors_origins] global. *)
Lemma handler_reads (ep : endpoint) (p q : Process) :
  environ p = environ q -> cors_origins p = cors_origins q ->
  result (handler ep p) = result (handler ep q)
  /\ lookups (handler ep p) = lookups (handler ep q).
Proof.
  intros Henv Hco.
  destruct ep; cbn; try (split; reflexivity).
  - unfold health_check, bind, os_getenv. cbn. now rewrite Henv.
  - unfold test_endpoint, bind, load_cors_origins. rewrite Hco.
    destruct (cors_origins q); split; reflexivity.
Qed.

Lemma handler_lookups (ep : endpoint) (p : Process) :
  lookups (handler ep p) =
  match ep with
  | ep_health_check => ["ENVIRONMENT"]
  | _ => []
  end.
Proof.
  destruct ep; try reflexivity.
  cbn. unfold test_endpoint, bind, load_cors_origins.
  destruct (cors_origins p); reflexivity.
Qed.

Lemma serve_looked_up (req : Request) (p : Process) (s : served) :
  serve req p = Some s -> looked_up s = [] \/ looked_up s = ["ENVIRONMENT"].
Proof.
  unfold serve. destruct (app p) as [a |]; [| discriminate].
  destruct (find_route req (routes a)) as [r |]; [| discriminate].
  intros [= <-]. cbn [looked_up]. rewrite handler_lookups.
  destruct (route_endpoint r); auto.
Qed.

Lemma lookups_during_environment_only (evs : list event) (p : Process) (key : string) :
  In key (lookups_during evs p) -> key = "ENVIRONMENT".
Proof.
  revert p. induction evs as [| e evs IH]; intros p; cbn [lookups_during]; [intros [] |].
  rewrite in_app_iff. intros [Hnow | Hlater]; [| now apply (IH _ Hlater)].
  destruct e as [req | |]; try contradiction.
  destruct (serve req p) as [s |] eqn:Hs; [| contradiction].
  destruct (serve_looked_up _ _ _ Hs) as [H | H]; rewrite H in Hnow; cbn in Hnow; intuition.
Qed.

(** With the installed application, no handler raises once
    [cors_origins] is assigned. *)
Lemma handler_returns (ep : endpoint) (p : Process) :
  is_Some (cors_origins p) -> exists v : value, result (handler ep p) = Returns v.
Proof.
  intros [l Hl]. destruct ep; cbn; eauto.
  unfold test_endpoint, bind, load_cors_origins. rewrite Hl. cbn. eauto.
Qed.

(** A handler's outcome is settled by ENVIRONMENT and the [cors_origins]
    global. *)
Lemma handler_result_reads (ep : endpoint) (p q : Process) :
  environ p !! "ENVIRONMENT" = environ q !! "ENVIRONMENT" ->
  cors_origins p = cors_origins q ->
  result (handler ep p) = result (handler ep q).
Proof.
  intros Henv Hco. destruct ep; cbn; try reflexivity.
  - unfold health_check, bind, os_getenv. cbn. now rewrite Henv.
  - unfold test_endpoint, bind, load_cors_origins. rewrite Hco.
    destruct (cors_origins q); reflexivity.
Qed.

(** ** Routing *)

Lemma path_regex_match_spec (pattern pth : string) :
  path_regex_match pattern pth = true <-> pth = pattern \/ pth = pattern +:+ newline.
Proof.
  unfold path_regex_match. rewrite orb_true_iff, !String.eqb_eq. intuition.
Qed.

(** Route lookup on the installed routes, case by case. *)
Lemma find_route_installed (req : Request) :
  find_route req (routes installed_app) =
  if String.eqb (req_method req) "GET" then
    if path_regex_match "/" (req_path req) then Some (mkRoute "/" ["GET"] ep_root 200)
    else if path_regex_match "/users" (req_path req)
         then Some (mkRoute "/users" ["GET"] ep_get_users 200)
    else if path_regex_match "/health" (req_path req)
         then Some (mkRoute "/health" ["GET"] ep_health_check 200)
    else if path_regex_match "/test" (req_path req)
         then Some (mkRoute "/test" ["GET"] ep_test_endpoint 200)
    else None
  else None.
Proof.
  unfold find_route, installed_app. cbn [routes List.find].
  unfold route_matches. cbn [path methods existsb].
  destruct (String.eqb (req_method req) "GET");
    destruct (path_regex_match "/" (req_path req));
    destruct (path_regex_match "/users" (req_path req));
    destruct (path_regex_match "/health" (req_path req));
    destruct (path_regex_match "/test" (req_path req)); reflexivity.
Qed.

Lemma find_route_installed_some (req : Request) (r : APIRoute) :
  find_route req (routes installed_app) = Some r ->
  req_method req = "GET"
  /\ path_regex_match (path r) (req_path req) = true
  /\ status_code r = 200%Z
  /\ In (path r) registered_paths.
Proof.
  rewrite find_route_installed.
  destruct (String.eqb_spec (req_method req) "GET") as [Hm |]; [| discriminate].
  destruct (path_regex_match "/" (req_path req)) eqn:H0.
  { intros [= <-]. cbn. intuition. }
  destruct (path_regex_match "/users" (req_path req)) eqn:H1.
  { intros [= <-]. cbn. intuition. }
  destruct (path_regex_match "/health" (req_path req)) eqn:H2.
  { intros [= <-]. cbn. intuition. }
  destruct (path_regex_match "/test" (req_path req)) eqn:H3; [| discriminate].
  intros [= <-]. cbn. intuition.
Qed.

Lemma find_route_installed_get (req : Request) (pattern : string) :
  req_method req = "GET" -> In pattern registered_paths ->
  path_regex_match pattern (req_path req) = true ->
  is_Some (find_route req (routes installed_app)).
Proof.
  intros Hm Hp Hmatch. rewrite find_route_installed, Hm.
  cbn [String.eqb Ascii.eqb Bool.eqb]. cbn in Hp.
  destruct Hp as [<- | [<- | [<- | [<- | []]]]]; rewrite ?Hmatch;
    repeat (match goal with |- context [if ?b then _ else _] => destruct b end); eauto.
Qed.

(** The route a plain GET of a registered path finds. *)
Lemma find_route_endpoint (ep : endpoint) :
  find_route (GET (endpoint_path ep)) (routes installed_app)
  = Some (mkRoute (endpoint_path ep) ["GET"] ep 200).
Proof. destruct ep; reflexivity. Qed.

(** Serving on a process that holds the installed application. *)
Lemma serve_app (req : Request) (p : Process) :
  app p = Some installed_app ->
  serve req p =
  (fun r : APIRoute =>
     mkServed (respond r (result (handler (route_endpoint r) p))) p
              (lookups (handler (route_endpoint r) p)))
    <$> find_route req (routes installed_app).
Proof.
  intros Happ. unfold serve. rewrite Happ.
  destruct (find_route req (routes installed_app)) as [r |]; [| reflexivity].
  cbn. now rewrite handler_after.
Qed.

Lemma serve_endpoint (ep : endpoint) (p : Process) :
  app p = Some installed_app ->
  serve (GET (endpoint_path ep)) p =
  Some (mkServed (respond (mkRoute (endpoint_path ep) ["GET"] ep 200) (result (handler ep p)))
                 p (lookups (handler ep p))).
Proof.
  intros Happ. now rewrite (serve_app _ p Happ), find_route_endpoint.
Qed.

(** The four registered routes, on any process holding the installed
    application. *)
Lemma serve_installed (pth : string) (ep : endpoint) (p : Process) :
  In (pth, ep) [("/", ep_root); ("/users", ep_get_users);
                ("/health", ep_health_check); ("/test", ep_test_endpoint)] ->
  app p = Some installed_app ->
  serve (GET pth) p =
  Some (mkServed (respond (mkRoute pth ["GET"] ep 200) (result (handler ep p)))
                 p (lookups (handler ep p))).
Proof.
  intros Hin Happ. cbn in Hin.
  destruct Hin as [[= <- <-] | [[= <- <-] | [[= <- <-] | [[= <- <-] | []]]]].
  - exact (serve_endpoint ep_root p Happ).
  - exact (serve_endpoint ep_get_users p Happ).
  - exact (serve_endpoint ep_health_check p Happ).
  - exact (serve_endpoint ep_test_endpoint p Happ).
Qed.

(** ** The two echoing responses *)

Lemma respond_returns (r : APIRoute) (v : value) :
  status_code r = 200%Z -> respond r (Returns v) = answer v.
Proof.
  intros Hr. unfold respond, render, answer. rewrite Hr. now destruct (renders v).
Qed.

Lemma test_served (env : gmap string string) (evs : list event) :
  serve (GET "/test") (run evs (booted env))
  = Some (mkServed
            (answer (test_body (Py.split_from "," 0
                                  (getenv_of env "CORS_ORIGINS" "http://localhost:5173"))))
            (run evs (booted env)) []).
Proof.
  rewrite (serve_endpoint ep_test_endpoint) by apply run_booted_app.
  cbn [handler]. unfold test_endpoint, bind, load_cors_origins.
  rewrite run_booted_cors_origins. cbn [result lookups ret app].
  now rewrite respond_returns.
Qed.

Lemma health_served (env : gmap string string) (evs : list event) :
  serve (GET "/health") (run evs (booted env))
  = Some (mkServed
            (answer (health_body
                       (getenv_of (environ (run evs (booted env))) "ENVIRONMENT" "unknown")))
            (run evs (booted env)) ["ENVIRONMENT"]).
Proof.
  rewrite (serve_endpoint ep_health_check) by apply run_booted_app.
  cbn [handler]. unfold health_check, bind, os_getenv.
  cbn [result lookups after ret app]. now rewrite respond_returns.
Qed.

Lemma answer_test_body (v : string) :
  answer (test_body (Py.split_from "," 0 v))
  = if Py.well_formed_utf8 v
    then mkResponse 200 (test_body (Py.split_from "," 0 v))
    else server_error.
Proof. unfold answer. now rewrite renders_test_body, well_formed_split. Qed.

Lemma answer_health_body (label : string) :
  answer (health_body label)
  = if Py.well_formed_utf8 label then mkResponse 200 (health_body label) else server_error.
Proof. unfold answer. now rewrite renders_health_body. Qed.

(** The same events keep two environments in agreement on a name they
    agreed on. *)
Lemma run_environ_agree (evs : list event) (p q : Process) (key : string) :
  environ p !! key = environ q !! key ->
  environ (run evs p) !! key = environ (run evs q) !! key.
Proof.
  unfold run. revert p q. induction evs as [| e evs IH]; intros p q Hpq; [exact Hpq |].
  cbn [fold_left]. apply IH.
  destruct e as [req | k v | k].
  - now rewrite !step_arrives.
  - cbn. rewrite !lookup_insert. now case_decide.
  - cbn. rewrite !lookup_delete. now case_decide.
Qed.

(** ** GET /test *)

(** Against C1 as stated: with CORS_ORIGINS set to the bytes 61 2C FF the
    handler returns the split list, but the list cannot be rendered and
    GET /test is answered with the server error, not with the origins. *)
Lemma test_endpoint_undecodable_origins :
  cors_origins (booted undecodable_origins_env) = Some ["a"; stray_byte]
  /\ result (test_endpoint (booted undecodable_origins_env))
     = Returns (test_body ["a"; stray_byte])
  /\ response <$> serve (GET "/test") (booted undecodable_origins_env)
     = Some (mkResponse 500 (VStr "Internal Server Error")).
Proof. repeat split; vm_compute; reflexivity. Qed.

(** C1, amended. Whatever the environment at startup and whatever happens
    afterwards, GET /test answers 200 with the message "CORS is working!"
    and, as origins, the value CORS_ORIGINS had at startup split on commas,
    provided that value is well-formed UTF-8; a value that is not gets the
    server error; with CORS_ORIGINS unset at startup the origins are the
    single default origin. *)
Theorem test_endpoint_origins (env : gmap string string) (evs : list event) :
  (forall v : string,
      env !! "CORS_ORIGINS" = Some v ->
      Py.well_formed_utf8 v = true ->
      exists segs : list string,
        Py.str_split v "," = inr segs /\
        serve (GET "/test") (run evs (booted env)) =
        Some (mkServed
                (mkResponse 200
                   (VDict [("message", VStr "CORS is working!");
                           ("origins", VList (map VStr segs))]))
                (run evs (booted env)) []))
  /\ (forall v : string,
        env !! "CORS_ORIGINS" = Some v ->
        Py.well_formed_utf8 v = false ->
        serve (GET "/test") (run evs (booted env)) =
        Some (mkServed (mkResponse 500 (VStr "Internal Server Error"))
                       (run evs (booted env)) []))
  /\ (env !! "CORS_ORIGINS" = None ->
      serve (GET "/test") (run evs (booted env)) =
      Some (mkServed
              (mkResponse 200
                 (VDict [("message", VStr "CORS is working!");
                         ("origins", VList [VStr "http://localhost:5173"])]))
              (run evs (booted env)) [])).
Proof.
  rewrite test_served, answer_test_body. unfold getenv_of.
  split; [| split].
  - intros v Hv Hwf. exists (Py.split_from "," 0 v). split; [reflexivity |].
    now rewrite Hv, Hwf.
  - intros v Hv Hwf. now rewrite Hv, Hwf.
  - intros Hv. now rewrite Hv.
Qed.

Lemma test_endpoint_origins_witness :
  serve (GET "/test") (run [EnvSet "CORS_ORIGINS" "https://c.com"] (booted staging_env)) =
  Some (mkServed
          (mkResponse 200
             (VDict [("message", VStr "CORS is working!");
                     ("origins", VList [VStr "https://a.com"; VStr "https://b.com"])]))
          (run [EnvSet "CORS_ORIGINS" "https://c.com"] (booted staging_env)) [])
  /\ serve (GET "/test") (run [] (booted undecodable_origins_env)) =
     Some (mkServed (mkResponse 500 (VStr "Internal Server Error"))
                    (run [] (booted undecodable_origins_env)) [])
  /\ serve (GET "/test") (run [] (booted bare_env)) =
     Some (mkServed
             (mkResponse 200
                (VDict [("message", VStr "CORS is working!");
                        ("origins", VList [VStr "http://localhost:5173"])]))
             (run [] (booted bare_env)) []).
Proof.
  split; [| split].
  - destruct (proj1 (test_endpoint_origins staging_env [EnvSet "CORS_ORIGINS" "https://c.com"])
                    "https://a.com,https://b.com"
                    ltac:(vm_compute; reflexivity) ltac:(vm_compute; reflexivity))
      as (segs & Hsplit & Hserve).
    injection Hsplit as <-. exact Hserve.
  - apply (proj1 (proj2 (test_endpoint_origins undecodable_origins_env []))
             ("a," +:+ stray_byte)); vm_compute; reflexivity.
  - apply (proj2 (proj2 (test_endpoint_origins bare_env []))). vm_compute. reflexivity.
Defined.

(** ** When the environment is read *)

(** Against C2 as stated: startup does not look ENVIRONMENT up at all, every
    GET /health looks it up again, and once [os.environ] has changed the
    answer of GET /health is the new value, not the one at startup. *)
Lemma health_follows_later_environment :
  lookups (startup staging_env) = ["CORS_ORIGINS"]
  /\ lookups_during [Arrives (GET "/health"); Arrives (GET "/health")] (booted staging_env)
     = ["ENVIRONMENT"; "ENVIRONMENT"]
  /\ response <$> serve (GET "/health") (booted staging_env)
     = Some (mkResponse 200 (health_body "staging"))
  /\ response <$> serve (GET "/health")
                        (run [EnvSet "ENVIRONMENT" "production"] (booted staging_env))
     = Some (mkResponse 200 (health_body "production"))
  /\ response <$> serve (GET "/health")
                        (run [EnvSet "ENVIRONMENT" "production"] (booted staging_env))
     <> response <$> serve (GET "/health") (booted staging_env).
Proof. repeat split; vm_compute; (reflexivity || discriminate). Qed.

(** C2, amended. CORS_ORIGINS is looked up exactly once, during startup,
    and never afterwards; the answer of GET /test is settled by the value
    CORS_ORIGINS had at startup, whatever happens to [os.environ] later.
    ENVIRONMENT is not looked up at startup: each GET /health looks it up
    once, and answers with the value it has at that moment, or "unknown",
    when that value is well-formed UTF-8, and with the server error when it
    is not. *)
Theorem environment_reads (env : gmap string string) (evs : list event) :
  lookups (startup env) = ["CORS_ORIGINS"]
  /\ ~ In "CORS_ORIGINS" (lookups_during evs (booted env))
  /\ (forall (env' : gmap string string) (evs' : list event),
        env' !! "CORS_ORIGINS" = env !! "CORS_ORIGINS" ->
        response <$> serve (GET "/test") (run evs' (booted env'))
        = response <$> serve (GET "/test") (booted env))
  /\ serve (GET "/health") (run evs (booted env))
     = Some (mkServed
               (if Py.well_formed_utf8
                     match environ (run evs (booted env)) !! "ENVIRONMENT" with
                     | Some v => v
                     | None => "unknown"
                     end
                then mkResponse 200
                       (health_body
                          match environ (run evs (booted env)) !! "ENVIRONMENT" with
                          | Some v => v
                          | None => "unknown"
                          end)
                else mkResponse 500 (VStr "Internal Server Error"))
               (run evs (booted env)) ["ENVIRONMENT"]).
Proof.
  split; [reflexivity |].
  split; [intros Hin; now apply lookups_during_environment_only in Hin |].
  split.
  - intros env' evs' Hsame.
    assert (Hboot := test_served env []). unfold run in Hboot at 1. cbn [fold_left] in Hboot.
    rewrite (test_served env' evs'), Hboot.
    unfold getenv_of. now rewrite Hsame.
  - rewrite health_served, answer_health_body. reflexivity.
Qed.

Lemma environment_reads_witness :
  response <$> serve (GET "/test")
                     (run [EnvSet "CORS_ORIGINS" "https://evil.example"; EnvDel "ENVIRONMENT"]
                          (booted {[ "CORS_ORIGINS" := "https://a.com,https://b.com" ]}))
  = response <$> serve (GET "/test") (booted staging_env).
Proof.
  apply (proj1 (proj2 (proj2 (environment_reads staging_env [])))).
  vm_compute. reflexivity.
Defined.

(** ** The CORS policy *)

(** C3. Whatever the environment and at any point of the process
    lifetime, the one middleware installed is the CORS middleware with the
    wildcard for origins, methods and headers, and with credentials
    allowed; the application object is the same for every environment, so
    the list parsed from CORS_ORIGINS takes no part in it.  The parsed
    list is held in [cors_origins] and GET /test answers with it (when it
    can be rendered); the three other routes answer alike whatever
    CORS_ORIGINS was, and their handlers do not depend on the list. *)
Theorem cors_policy_is_wildcard (env : gmap string string) (evs : list event) :
  exists (a : FastAPI) (segs : list string),
    app (run evs (booted env)) = Some a
    /\ user_middleware a = [CORSMiddleware ["*"] true ["*"] ["*"]]
    /\ (forall (env' : gmap string string) (evs' : list event),
          app (run evs' (booted env')) = Some a)
    /\ Py.str_split match env !! "CORS_ORIGINS" with
                    | Some v => v
                    | None => "http://localhost:5173"
                    end ","
       = inr segs
    /\ cors_origins (run evs (booted env)) = Some segs
    /\ (forallb Py.well_formed_utf8 segs = true ->
        response <$> serve (GET "/test") (run evs (booted env))
        = Some (mkResponse 200
                  (VDict [("message", VStr "CORS is working!");
                          ("origins", VList (map VStr segs))])))
    /\ (forall env' : gmap string string,
          env' !! "ENVIRONMENT" = env !! "ENVIRONMENT" ->
          response <$> serve (GET "/") (run evs (booted env'))
          = response <$> serve (GET "/") (run evs (booted env))
          /\ response <$> serve (GET "/users") (run evs (booted env'))
             = response <$> serve (GET "/users") (run evs (booted env))
          /\ response <$> serve (GET "/health") (run evs (booted env'))
             = response <$> serve (GET "/health") (run evs (booted env)))
    /\ (forall (e : gmap string string) (a' : option FastAPI) (l l' : option (list string)),
          root (mkProcess e a' l) = mkRan (result (root (mkProcess e a' l'))) (mkProcess e a' l) []
          /\ get_users (mkProcess e a' l) =
             mkRan (result (get_users (mkProcess e a' l'))) (mkProcess e a' l) []
          /\ health_check (mkProcess e a' l) =
             mkRan (result (health_check (mkProcess e a' l'))) (mkProcess e a' l) ["ENVIRONMENT"])
    /\ (forall (e : gmap string string) (a' : option FastAPI) (l : list string),
          result (test_endpoint (mkProcess e a' (Some l))) =
          Returns (VDict [("message", VStr "CORS is working!");
                          ("origins", VList (map VStr l))])).
Proof.
  exists installed_app,
    (Py.split_from "," 0 (getenv_of env "CORS_ORIGINS" "http://localhost:5173")).
  split; [apply run_booted_app |].
  split; [reflexivity |].
  split; [intros env' evs'; apply run_booted_app |].
  split; [reflexivity |].
  split; [apply run_booted_cors_origins |].
  split.
  { intros Hwf. rewrite test_served. cbn [fmap option_fmap option_map response].
    unfold answer. now rewrite renders_test_body, Hwf. }
  split.
  { intros env' Henv.
    rewrite !(serve_installed "/" ep_root), !(serve_installed "/users" ep_get_users)
      by (cbn; tauto || apply run_booted_app).
    rewrite !health_served.
    unfold getenv_of.
    rewrite (run_environ_agree evs (booted env') (booted env) "ENVIRONMENT") by exact Henv.
    repeat split. }
  split; [intros e a' l l'; repeat split | reflexivity].
Qed.

Lemma cors_policy_is_wildcard_witness :
  exists (a : FastAPI) (segs : list string),
    app (booted staging_env) = Some a
    /\ user_middleware a = [CORSMiddleware ["*"] true ["*"] ["*"]]
    /\ cors_origins (booted staging_env) = Some segs
    /\ segs = ["https://a.com"; "https://b.com"]
    /\ response <$> serve (GET "/test") (booted staging_env)
       = Some (mkResponse 200
                 (VDict [("message", VStr "CORS is working!");
                         ("origins", VList (map VStr segs))])).
Proof.
  destruct (cors_policy_is_wildcard staging_env [])
    as (a & segs & Happ & Hmw & _ & Hsplit & Hco & Htest & _).
  exists a, segs.
  assert (Hsegs : segs = ["https://a.com"; "https://b.com"]).
  { vm_compute in Hsplit. now injection Hsplit as <-. }
  split; [exact Happ |]. split; [exact Hmw |]. split; [exact Hco |]. split; [exact Hsegs |].
  apply Htest. rewrite Hsegs. vm_compute. reflexivity.
Defined.

(** ** GET /health *)

(** Against C4 as stated: with ENVIRONMENT set to the byte FF the handler
    returns the label, but the label cannot be rendered and GET /health is
    answered with the server error. *)
Lemma health_check_undecodable_label :
  result (health_check (booted undecodable_label_env)) = Returns (health_body stray_byte)
  /\ response <$> serve (GET "/health") (booted undecodable_label_env)
     = Some (mkResponse 500 (VStr "Internal Server Error")).
Proof. repeat split; vm_compute; reflexivity. Qed.

(** C4, amended. At any point of the process lifetime, GET /health
    answers 200 with status "healthy" and, as environment, the value
    ENVIRONMENT has in [os.environ] at that point, provided that value is
    well-formed UTF-8; a value that is not gets the server error; with
    ENVIRONMENT unset the environment is the literal "unknown". *)
Theorem health_check_environment (env : gmap string string) (evs : list event) :
  (forall v : string,
      environ (run evs (booted env)) !! "ENVIRONMENT" = Some v ->
      Py.well_formed_utf8 v = true ->
      serve (GET "/health") (run evs (booted env)) =
      Some (mkServed
              (mkResponse 200
                 (VDict [("status", VStr "healthy"); ("environment", VStr v)]))
              (run evs (booted env)) ["ENVIRONMENT"]))
  /\ (forall v : string,
        environ (run evs (booted env)) !! "ENVIRONMENT" = Some v ->
        Py.well_formed_utf8 v = false ->
        serve (GET "/health") (run evs (booted env)) =
        Some (mkServed (mkResponse 500 (VStr "Internal Server Error"))
                       (run evs (booted env)) ["ENVIRONMENT"]))
  /\ (environ (run evs (booted env)) !! "ENVIRONMENT" = None ->
      serve (GET "/health") (run evs (booted env)) =
      Some (mkServed
              (mkResponse 200
                 (VDict [("status", VStr "healthy"); ("environment", VStr "unknown")]))
              (run evs (booted env)) ["ENVIRONMENT"])).
Proof.
  rewrite health_served, answer_health_body. unfold getenv_of.
  split; [| split].
  - intros v Hv Hwf. now rewrite Hv, Hwf.
  - intros v Hv Hwf. now rewrite Hv, Hwf.
  - intros Hv. now rewrite Hv.
Qed.

Lemma health_check_environment_witness :
  serve (GET "/health") (run [] (booted staging_env)) =
  Some (mkServed
          (mkResponse 200
             (VDict [("status", VStr "healthy"); ("environment", VStr "staging")]))
          (run [] (booted staging_env)) ["ENVIRONMENT"])
  /\ serve (GET "/health") (run [EnvSet "ENVIRONMENT" stray_byte] (booted staging_env)) =
     Some (mkServed (mkResponse 500 (VStr "Internal Server Error"))
                    (run [EnvSet "ENVIRONMENT" stray_byte] (booted staging_env))
                    ["ENVIRONMENT"])
  /\ serve (GET "/health") (run [Arrives (GET "/health"); EnvDel "ENVIRONMENT"] (booted staging_env)) =
     Some (mkServed
             (mkResponse 200
                (VDict [("status", VStr "healthy"); ("environment", VStr "unknown")]))
             (run [Arrives (GET "/health"); EnvDel "ENVIRONMENT"] (booted staging_env))
             ["ENVIRONMENT"]).
Proof.
  split; [| split].
  - apply (proj1 (health_check_environment staging_env []) "staging");
      vm_compute; reflexivity.
  - apply (proj1 (proj2 (health_check_environment staging_env
                           [EnvSet "ENVIRONMENT" stray_byte])) stray_byte);
      vm_compute; reflexivity.
  - apply (proj2 (proj2 (health_check_environment staging_env
                           [Arrives (GET "/health"); EnvDel "ENVIRONMENT"]))).
    vm_compute. reflexivity.
Defined.

(** ** GET /users *)

(** C5. GET /users answers with the same two records, in the same order,
    at any point of the lifetime of any process; each record has an integer
    id, a non-empty name and an email containing an at sign, and no two
    records share an id. *)
Theorem get_users_two_records :
  exists us : list value,
    (forall (env : gmap string string) (evs : list event),
        serve (GET "/users") (run evs (booted env)) =
        Some (mkServed (mkResponse 200 (VList us)) (run evs (booted env)) []))
    /\ length us = 2
    /\ Forall user_record us
    /\ length (omap user_id us) = length us
    /\ NoDup (omap user_id us).
Proof.
  eexists. split; [| split; [| split; [| split]]].
  - intros env evs.
    rewrite (serve_installed "/users" ep_get_users) by (cbn; tauto || apply run_booted_app).
    reflexivity.
  - reflexivity.
  - repeat constructor.
    + exists 1%Z, "Nik", "nik@example.com". repeat split. discriminate.
    + exists 2%Z, "Kev", "kev@example.com". repeat split. discriminate.
  - reflexivity.
  - change (NoDup [1%Z; 2%Z]). apply NoDup_cons. split; [| apply NoDup_singleton].
    intros [=]%list_elem_of_singleton.
Qed.

(** ** Startup and malformed values *)

(** Against C6 as stated: a malformed value with commas in it is split
    into as many elements as the commas make, not into one. *)
Lemma malformed_value_many_elements :
  result (startup malformed_env) = Returns tt
  /\ cors_origins (booted malformed_env) = Some ["http://a.com"; ""; "not an origin"]
  /\ (length <$> cors_origins (booted malformed_env)) <> Some 1.
Proof. repeat split; [vm_compute; discriminate]. Qed.

(** C6, amended. Startup never fails, whatever CORS_ORIGINS holds: the
    value is not validated, it is split on commas into a list that joins
    back to it and has one more element than the value has commas, a single
    element exactly when the value has no comma.  After startup no handler
    raises, at any point of the process lifetime. *)
Theorem startup_never_fails (env : gmap string string) :
  result (startup env) = Returns tt
  /\ (exists segs : list string,
        cors_origins (booted env) = Some segs
        /\ forall v : string,
            env !! "CORS_ORIGINS" = Some v ->
            Py.str_join "," segs = v
            /\ length segs = S (Py.str_count "," v)
            /\ (length segs = 1 <-> Py.str_contains "," v = false)
            /\ (Py.str_contains "," v = false -> segs = [v]))
  /\ (forall (evs : list event) (ep : endpoint),
        exists v : value, result (handler ep (run evs (booted env))) = Returns v).
Proof.
  split; [reflexivity |].
  split.
  - exists (Py.split_from "," 0 (getenv_of env "CORS_ORIGINS" "http://localhost:5173")).
    split; [reflexivity |].
    intros v Hv. unfold getenv_of. rewrite Hv.
    split; [apply join_split_comma |].
    split; [apply split_comma_length |].
    split; [| apply split_comma_single].
    rewrite split_comma_length, <- (count_zero_comma_free v). lia.
  - intros evs ep. apply handler_returns.
    rewrite run_booted_cors_origins. eauto.
Qed.

Lemma startup_never_fails_witness :
  exists segs : list string,
    cors_origins (booted unsplit_env) = Some segs
    /\ segs = ["not an origin"].
Proof.
  destruct (proj1 (proj2 (startup_never_fails unsplit_env)))
    as (segs & Hsegs & Hv).
  exists segs. split; [exact Hsegs |].
  apply (Hv "not an origin"); vm_compute; reflexivity.
Defined.

(** ** Repeated requests *)

(** C7. For each of the four endpoints, two requests made at any two
    points of a process lifetime at which [os.environ] is the same get the
    same response: same status, same body value, hence the same encoded
    body. *)
Theorem handlers_deterministic
    (ep : endpoint) (env : gmap string string) (evs1 evs2 : list event) :
  environ (run evs1 (booted env)) = environ (run evs2 (booted env)) ->
  exists r : Response,
    response <$> serve (GET (endpoint_path ep)) (run evs1 (booted env)) = Some r
    /\ response <$> serve (GET (endpoint_path ep)) (run evs2 (booted env)) = Some r.
Proof.
  intros Henv.
  rewrite !serve_endpoint by apply run_booted_app.
  eexists. split; [reflexivity |]. cbn [fmap option_fmap option_map response].
  destruct (handler_reads ep (run evs1 (booted env)) (run evs2 (booted env))) as [-> _];
    [exact Henv | | reflexivity].
  now rewrite !run_booted_cors_origins.
Qed.

Lemma handlers_deterministic_witness :
  response <$> serve (GET "/health")
                     (run [Arrives (GET "/health")] (booted staging_env)) =
  Some (mkResponse 200 (VDict [("status", VStr "healthy"); ("environment", VStr "staging")]))
  /\ response <$> serve (GET "/health")
                        (run [EnvSet "ENVIRONMENT" "production"; Arrives (GET "/test");
                              EnvSet "ENVIRONMENT" "staging"]
                             (booted staging_env)) =
     Some (mkResponse 200 (VDict [("status", VStr "healthy"); ("environment", VStr "staging")])).
Proof.
  destruct (handlers_deterministic ep_health_check staging_env
              [Arrives (GET "/health")]
              [EnvSet "ENVIRONMENT" "production"; Arrives (GET "/test");
               EnvSet "ENVIRONMENT" "staging"]
              ltac:(vm_compute; reflexivity))
    as (r & H1 & H2).
  assert (Hr : r = mkResponse 200 (VDict [("status", VStr "healthy");
                                          ("environment", VStr "staging")])).
  { assert (Hc : response <$> serve (GET "/health")
                                    (run [Arrives (GET "/health")] (booted staging_env))
                 = Some (mkResponse 200 (VDict [("status", VStr "healthy");
                                                ("environment", VStr "staging")])))
      by (vm_compute; reflexivity).
    change (endpoint_path ep_health_check) with "/health" in H1.
    rewrite Hc in H1. now injection H1. }
  subst r. split; assumption.
Defined.

(** ** Frame *)

(** Against C8 as stated: [health_check] is not a function of the state
    startup left.  From one and the same startup, once ENVIRONMENT has been
    removed from [os.environ] the handler returns another value. *)
Lemma health_check_not_startup_state :
  result (health_check (booted staging_env)) = Returns (health_body "staging")
  /\ result (health_check (run [EnvDel "ENVIRONMENT"] (booted staging_env)))
     = Returns (health_body "unknown")
  /\ serve (GET "/health") (run [EnvDel "ENVIRONMENT"] (booted staging_env))
     <> serve (GET "/health") (booted staging_env).
Proof. repeat split; vm_compute; (reflexivity || discriminate). Qed.

(** C8, amended. Serving a request changes nothing in the process: not
    [os.environ], not the application object with its routes and
    middleware, not the [cors_origins] list; so after any number of
    requests every response is the one the state left by startup gives.
    The query, the headers and the body of a request have no influence on
    how it is served, and no registered path has a parameter.  Whatever
    happens in a process, its state is the application and the
    [cors_origins] list startup left together with [os.environ] as it is
    at the time, and a handler's outcome is settled by that list and by
    ENVIRONMENT as it is at the time of the request. *)
Theorem handlers_are_pure (p : Process) (req : Request) :
  step p (Arrives req) = p
  /\ (forall ep : endpoint, after (handler ep p) = p)
  /\ (forall reqs : list Request, run (map Arrives reqs) p = p)
  /\ (forall (env : gmap string string) (reqs : list Request),
        serve req (run (map Arrives reqs) (booted env)) = serve req (booted env))
  /\ (forall (q q' h h' : list (string * string)) (b b' : string),
        serve (mkRequest (req_method req) (req_path req) q h b) p =
        serve (mkRequest (req_method req) (req_path req) q' h' b') p)
  /\ Forall (fun r : APIRoute => Py.str_contains "{" (path r) = false)
            (routes installed_app)
  /\ (forall (env : gmap string string) (evs : list event),
        run evs (booted env)
        = mkProcess (environ (run evs (booted env)))
                    (app (booted env)) (cors_origins (booted env)))
  /\ (forall (ep : endpoint) (q : Process),
        environ p !! "ENVIRONMENT" = environ q !! "ENVIRONMENT" ->
        cors_origins p = cors_origins q ->
        result (handler ep p) = result (handler ep q)).
Proof.
  split; [apply step_arrives |].
  split; [intros ep; apply handler_after |].
  split; [intros reqs; apply run_arrivals |].
  split; [intros env reqs; now rewrite run_arrivals |].
  split; [reflexivity |].
  split; [repeat constructor |].
  split.
  - intros env evs. destruct (run_globals evs (booted env)) as [Happ Hco].
    destruct (run evs (booted env)) as [e a l]. cbn in Happ, Hco. now subst.
  - intros ep q. apply handler_result_reads.
Qed.

Lemma handlers_are_pure_witness :
  result (handler ep_health_check
            (run [EnvSet "CORS_ORIGINS" "x"; Arrives (GET "/test")] (booted staging_env)))
  = result (handler ep_health_check (booted staging_env)).
Proof.
  symmetry.
  apply (proj2 (proj2 (proj2 (proj2 (proj2 (proj2 (proj2
           (handlers_are_pure (booted staging_env) (GET "/health")))))))));
    vm_compute; reflexivity.
Defined.

(** ** GET / *)

(** C9. At any point of the process lifetime, GET / answers 200 with a
    body whose message is the banner and whose status is "healthy". *)
Theorem root_is_healthy (env : gmap string string) (evs : list event) :
  exists b : value,
    serve (GET "/") (run evs (booted env)) =
    Some (mkServed (mkResponse 200 b) (run evs (booted env)) [])
    /\ field "message" b = Some (VStr banner)
    /\ field "status" b = Some (VStr "healthy").
Proof.
  exists (VDict [("message", VStr banner); ("status", VStr "healthy")]).
  rewrite (serve_installed "/" ep_root) by (cbn; tauto || apply run_booted_app).
  repeat split.
Qed.

(** ** No trimming, no filtering *)




(** ** Which requests are answered *)

(** What each handler returns after startup, and whether it renders. *)
Lemma handler_outcome (ep : endpoint) (env : gmap string string) (evs : list event) :
  exists v : value,
    result (handler ep (run evs (booted env))) = Returns v
    /\ (Py.well_formed_utf8 (getenv_of env "CORS_ORIGINS" "http://localhost:5173") = true ->
        Py.well_formed_utf8
          (getenv_of (environ (run evs (booted env))) "ENVIRONMENT" "unknown") = true ->
        renders v = true).
Proof.
  destruct ep; cbn [handler].
  - eexists. split; [reflexivity |]. reflexivity.
  - eexists. split; [reflexivity |]. reflexivity.
  - eexists. split; [reflexivity |]. intros _ Hwf.
    exact (eq_trans (renders_health_body _) Hwf).
  - unfold test_endpoint, bind, load_cors_origins. rewrite run_booted_cors_origins.
    eexists. split; [reflexivity |]. intros Hwf _.
    change (renders (test_body (Py.split_from "," 0
              (getenv_of env "CORS_ORIGINS" "http://localhost:5173"))) = true).
    now rewrite renders_test_body, well_formed_split.
Qed.

(** X1. After startup, at any point, the module's handlers answer a request
    exactly when its method is GET and its path is one of the four
    registered ones, alone or followed by one final newline.  Every such
    answer leaves the process as it was, and is either a 200 or the server
    error; it is a 200 whenever CORS_ORIGINS as it was at startup and
    ENVIRONMENT as it is now, or the defaults in their places, are
    well-formed UTF-8. *)
Theorem only_registered_get_routes
    (env : gmap string string) (evs : list event) (req : Request) :
  (is_Some (serve req (run evs (booted env)))
   <-> req_method req = "GET"
       /\ exists pattern : string,
            In pattern registered_paths
            /\ (req_path req = pattern \/ req_path req = pattern +:+ newline))
  /\ (forall s : served,
        serve req (run evs (booted env)) = Some s ->
        left_in s = run evs (booted env)
        /\ (status (response s) = 200%Z
            \/ response s = mkResponse 500 (VStr "Internal Server Error"))
        /\ (Py.well_formed_utf8 (getenv_of env "CORS_ORIGINS" "http://localhost:5173") = true ->
            Py.well_formed_utf8
              (getenv_of (environ (run evs (booted env))) "ENVIRONMENT" "unknown") = true ->
            status (response s) = 200%Z)).
Proof.
  rewrite (serve_app req) by apply run_booted_app.
  split; [split |].
  - intros [s Hs].
    destruct (find_route req (routes installed_app)) as [r |] eqn:Hr; [| discriminate].
    destruct (find_route_installed_some _ _ Hr) as (Hm & Hp & _ & Hin).
    split; [exact Hm |]. exists (path r). split; [exact Hin |].
    now apply path_regex_match_spec.
  - intros (Hm & pattern & Hin & Hp).
    apply path_regex_match_spec in Hp.
    destruct (find_route_installed_get req pattern Hm Hin Hp) as [r ->]. cbn. eauto.
  - intros s.
    destruct (find_route req (routes installed_app)) as [r |] eqn:Hr; [| discriminate].
    intros [= <-]. cbn [response left_in]. split; [reflexivity |].
    destruct (find_route_installed_some _ _ Hr) as (_ & _ & Hst & _).
    destruct (handler_outcome (route_endpoint r) env evs) as (v & -> & Hrenders).
    rewrite (respond_returns r v Hst). unfold answer. split.
    + destruct (renders v); [left | right]; reflexivity.
    + intros Hco Henv. now rewrite (Hrenders Hco Henv).
Qed.

Lemma only_registered_get_routes_witness :
  exists s : served,
    serve loaded_request (run [EnvDel "CORS_ORIGINS"] (booted staging_env)) = Some s
    /\ status (response s) = 200%Z
    /\ left_in s = run [EnvDel "CORS_ORIGINS"] (booted staging_env).
Proof.
  destruct (only_registered_get_routes staging_env [EnvDel "CORS_ORIGINS"] loaded_request)
    as [Hiff Hserved].
  destruct (proj2 Hiff) as [s Hs].
  - split; [reflexivity |]. exists "/users". split; [cbn; auto | left; reflexivity].
  - exists s. split; [exact Hs |].
    destruct (Hserved s Hs) as (Hleft & _ & Hstatus).
    split; [| exact Hleft]. apply Hstatus; vm_compute; reflexivity.
Defined.

(** ** What the echoing endpoints disclose *)

Lemma map_VStr_inj (l l' : list string) : map VStr l = map VStr l' -> l = l'.
Proof.
  revert l'. induction l as [| x l IH]; intros [| x' l']; cbn; try discriminate; [reflexivity |].
  intros [= -> Hl]. now rewrite (IH _ Hl).
Qed.

(** Splitting on commas loses nothing: two texts with the same segments
    are the same text. *)
Lemma split_comma_inj (v v' : string) :
  Py.split_from "," 0 v = Py.split_from "," 0 v' -> v = v'.
Proof.
  intros H. rewrite <- (join_split_comma v), <- (join_split_comma v'). now rewrite H.
Qed.

(** X2. The two echoing endpoints give their variable away entirely, as
    far as it can be rendered: GET /test answers alike in two processes
    exactly when CORS_ORIGINS, or the default in its place, was the same
    text at their startups or was in both not well-formed UTF-8 (both get
    the server error), and GET /health answers alike exactly when
    ENVIRONMENT, or "unknown" in its place, is the same text at the two
    moments or is in both not well formed.  So an unset variable and one
    set to its default cannot be told apart, nor two values that are not
    well formed, and nothing else can be confused. *)
Theorem echo_endpoints_injective
    (env env' : gmap string string) (evs evs' : list event) :
  (response <$> serve (GET "/test") (run evs (booted env))
   = response <$> serve (GET "/test") (run evs' (booted env'))
   <-> getenv_of env "CORS_ORIGINS" "http://localhost:5173"
       = getenv_of env' "CORS_ORIGINS" "http://localhost:5173"
       \/ (Py.well_formed_utf8 (getenv_of env "CORS_ORIGINS" "http://localhost:5173") = false
           /\ Py.well_formed_utf8 (getenv_of env' "CORS_ORIGINS" "http://localhost:5173")
              = false))
  /\ (response <$> serve (GET "/health") (run evs (booted env))
      = response <$> serve (GET "/health") (run evs' (booted env'))
      <-> getenv_of (environ (run evs (booted env))) "ENVIRONMENT" "unknown"
          = getenv_of (environ (run evs' (booted env'))) "ENVIRONMENT" "unknown"
          \/ (Py.well_formed_utf8
                (getenv_of (environ (run evs (booted env))) "ENVIRONMENT" "unknown") = false
              /\ Py.well_formed_utf8
                   (getenv_of (environ (run evs' (booted env'))) "ENVIRONMENT" "unknown")
                 = false)).
Proof.
  rewrite !test_served, !health_served, !answer_test_body, !answer_health_body.
  cbn [fmap option_fmap option_map response].
  generalize (getenv_of env "CORS_ORIGINS" "http://localhost:5173")
             (getenv_of env' "CORS_ORIGINS" "http://localhost:5173")
             (getenv_of (environ (run evs (booted env))) "ENVIRONMENT" "unknown")
             (getenv_of (environ (run evs' (booted env'))) "ENVIRONMENT" "unknown").
  intros v v' w w'. unfold server_error, test_body, health_body. split; split.
  - destruct (Py.well_formed_utf8 v) eqn:Hv, (Py.well_formed_utf8 v') eqn:Hv'; intros H;
      [| discriminate H | discriminate H | right; split; reflexivity].
    injection H as H. left. now apply split_comma_inj, map_VStr_inj.
  - intros [-> | [-> ->]]; reflexivity.
  - destruct (Py.well_formed_utf8 w) eqn:Hw, (Py.well_formed_utf8 w') eqn:Hw'; intros H;
      [| discriminate H | discriminate H | right; split; reflexivity].
    injection H as ->. left. reflexivity.
  - intros [-> | [-> ->]]; reflexivity.
Qed.

(** X3. The list held in [cors_origins] is never empty, and it is the one
    empty origin exactly when CORS_ORIGINS was set to the empty text at
    startup: a variable set to nothing is not taken as unset.  When the
    value at startup is well-formed UTF-8, this list is what GET /test
    answers with. *)
Theorem origins_never_empty (env : gmap string string) (evs : list event) :
  exists (first : string) (rest : list string),
    cors_origins (run evs (booted env)) = Some (first :: rest)
    /\ (first :: rest = [""] <-> env !! "CORS_ORIGINS" = Some "")
    /\ (Py.well_formed_utf8 (getenv_of env "CORS_ORIGINS" "http://localhost:5173") = true ->
        response <$> serve (GET "/test") (run evs (booted env))
        = Some (mkResponse 200 (test_body (first :: rest)))).
Proof.
  rewrite run_booted_cors_origins, test_served, answer_test_body.
  destruct (Py.split_from "," 0 (getenv_of env "CORS_ORIGINS" "http://localhost:5173"))
    as [| first rest] eqn:Hsplit; [now apply split_comma_nonempty in Hsplit |].
  exists first, rest. split; [reflexivity |]. split.
  - rewrite <- Hsplit. clear Hsplit. unfold getenv_of. split.
    + intros H. change [""] with (Py.split_from "," 0 "") in H.
      apply split_comma_inj in H.
      destruct (env !! "CORS_ORIGINS") as [v |]; [now subst | discriminate].
    + now intros ->.
  - now intros ->.
Qed.

Lemma origins_never_empty_witness :
  response <$> serve (GET "/test") (booted empty_origins_env)
  = Some (mkResponse 200 (test_body [""])).
Proof.
  destruct (origins_never_empty empty_origins_env []) as (first & rest & Hco & Hiff & Hresp).
  assert (Hlist : first :: rest = [""]) by (apply Hiff; vm_compute; reflexivity).
  rewrite <- Hlist. apply Hresp. vm_compute. reflexivity.
Defined.

(** ** Environment lookups over a lifetime *)

Lemma served_lookups (req : Request) (p : Process) :
  app p = Some installed_app ->
  match serve req p with
  | Some s => looked_up s
  | None => []
  end = if is_health_request req then ["ENVIRONMENT"] else [].
Proof.
  intros Happ. rewrite (serve_app req p Happ), find_route_installed.
  unfold is_health_request.
  destruct (String.eqb (req_method req) "GET"); [| reflexivity].
  cbn [andb].
  destruct (path_regex_match "/" (req_path req)) eqn:H0.
  { apply path_regex_match_spec in H0 as [H0 | H0]; rewrite H0; reflexivity. }
  destruct (path_regex_match "/users" (req_path req)) eqn:H1.
  { apply path_regex_match_spec in H1 as [H1 | H1]; rewrite H1; reflexivity. }
  destruct (path_regex_match "/health" (req_path req)); [reflexivity |].
  destruct (path_regex_match "/test" (req_path req)); [| reflexivity].
  cbn [fmap option_fmap option_map looked_up route_endpoint].
  now rewrite handler_lookups.
Qed.

Lemma step_app (p : Process) (e : event) :
  app p = Some installed_app -> app (step p e) = Some installed_app.
Proof. intros <-. apply step_globals. Qed.

Lemma lookups_during_installed (evs : list event) (p : Process) :
  app p = Some installed_app ->
  lookups_during evs p = repeat "ENVIRONMENT" (health_requests evs).
Proof.
  revert p. induction evs as [| e evs IH]; intros p Happ; [reflexivity |].
  cbn [lookups_during health_requests].
  rewrite (IH _ (step_app p e Happ)).
  destruct e as [req | |]; [| reflexivity ..].
  rewrite (served_lookups req p Happ).
  destruct (is_health_request req); reflexivity.
Qed.

(** X4. Over a whole process lifetime the module looks up CORS_ORIGINS
    once, at startup, and after that only ENVIRONMENT, once for each
    request the /health route answers, a GET of /health alone or followed
    by one final newline; no other name is ever looked up. *)
Theorem lookups_over_lifetime (env : gmap string string) (evs : list event) :
  lookups (startup env) ++ lookups_during evs (booted env)
  = "CORS_ORIGINS" :: repeat "ENVIRONMENT" (health_requests evs).
Proof.
  assert (Hstart : lookups (startup env) = ["CORS_ORIGINS"]) by reflexivity.
  rewrite Hstart, (lookups_during_installed evs (booted env)) by reflexivity.
  reflexivity.
Qed.

(** ** Running the module body again *)

(** X5. Running the module body again, in whatever state the process is,
    never fails and leaves exactly the process a first startup in the
    present environment leaves: the routes and the middleware are not
    registered twice, and [cors_origins] is read anew, so that GET /test
    then answers with the present value of CORS_ORIGINS when it is
    well-formed UTF-8, and with the server error when it is not. *)
Theorem reload_is_startup (p : Process) :
  main p = startup (environ p)
  /\ response <$> serve (GET "/test") (after (main p))
     = Some (if Py.well_formed_utf8
                  (getenv_of (environ p) "CORS_ORIGINS" "http://localhost:5173")
             then mkResponse 200
                    (test_body (Py.split_from "," 0
                                  (getenv_of (environ p) "CORS_ORIGINS"
                                             "http://localhost:5173")))
             else mkResponse 500 (VStr "Internal Server Error")).
Proof.
  assert (Hmain : main p = startup (environ p)) by (destruct p as [e a l]; reflexivity).
  split; [exact Hmain |].
  rewrite Hmain.
  assert (Hserved := test_served (environ p) []).
  unfold run in Hserved. cbn [fold_left] in Hserved. unfold booted in Hserved.
  rewrite Hserved, answer_test_body. reflexivity.
Qed.

(** ** Variables the module does not name *)


